(** * NVIDIA provider adapter: a shallow embedding of
      [app/lib/modules/llm/providers/nvidia.ts]

    The file embeds the three responsibilities of the [NVIDIAProvider] class
    (static catalog, dynamic catalog fetch, client construction) and proves
    properties of them.

    Conventions of the embedding.
    - JavaScript strings are [string]; [undefined] is [None].
    - JavaScript numbers are modelled by [Z]. The numbers of this file are
      token counts read from JSON; on integers in the safe range
      [Math.floor (n / 1000)], [Math.min] and the decimal printing of a
      template literal coincide with [Z.div], [Z.min] and [pretty].
    - A thrown value is explicit ([Outcome]); the network is explicit state
      ([World]): every [fetch] is appended to the log of requests. *)

From Stdlib Require Import ZArith String Ascii List Bool Lia.
From stdpp Require Import base strings gmap pretty.
Import ListNotations.

Local Open Scope Z_scope.
Local Open Scope string_scope.

(** ** JavaScript primitives used by the provider *)

Module JS.

(** [s.startsWith(p)] *)
Definition startsWith (s p : string) : bool := String.prefix p s.

(** [s.includes(sub)]: [sub] occurs at some position of [s]. *)
Fixpoint includes (s sub : string) : bool :=
  startsWith s sub ||
  match s with
  | EmptyString => false
  | String _ s' => includes s' sub
  end.

(** [arr.includes(x)] on an array of strings (strict equality). *)
Definition arrayIncludes (arr : list string) (x : string) : bool :=
  existsb (String.eqb x) arr.

(** Truthiness of an optional string: [undefined] and [''] are falsy. *)
Definition truthy (v : option string) : bool :=
  match v with
  | None => false
  | Some s => negb (String.eqb s "")
  end.

(** Truthiness of an optional number: [undefined] and [0] are falsy. *)
Definition truthyNumber (v : option Z) : bool :=
  match v with
  | None => false
  | Some n => negb (Z.eqb n 0)
  end.

(** [a || d] where [d] is a string literal. *)
Definition orElse (a : option string) (d : string) : string :=
  match a with
  | Some s => if String.eqb s "" then d else s
  | None => d
  end.

(** [${v}] for an optional string inside a template literal. *)
Definition interpolate (v : option string) : string :=
  match v with
  | Some s => s
  | None => "undefined"
  end.

(** [Number.MAX_SAFE_INTEGER], [2^53 - 1]: up to it every integer is a
    double, and the quotient by 1000 rounds to a double with the same
    floor. *)
Definition MAX_SAFE_INTEGER : Z := 9007199254740991.

(** Decimal printing of an integer inside a template literal. It is what
    JavaScript prints for the integers up to [MAX_SAFE_INTEGER] in
    absolute value; larger doubles are rounded and, from [1e21], printed
    in exponent notation. *)
Definition numberToString (n : Z) : string := pretty n.

(** [Math.floor(n / d)] for a positive literal [d]; exact for [n] up to
    [MAX_SAFE_INTEGER] in absolute value and [d = 1000]. *)
Definition floorDiv (n d : Z) : Z := n / d.

End JS.

(** ** Thrown values, outcomes and the network *)

(** What a [throw] carries: the provider throws a bare string; the runtime
    and the transport throw [Error] objects. *)
Inductive Thrown : Type :=
  | ThrownString (s : string)
  | ThrownError (errname message : string).

Inductive Outcome (A : Type) : Type :=
  | Returned (a : A)
  | Threw (t : Thrown).
Arguments Returned {A} a.
Arguments Threw {A} t.

Record Request : Type := mkRequest {
  url : string;
  headers : list (string * string)
}.

(** One record of the remote [data] array:
    [{ id: string, object: string, context_length?: number }]. *)
Module Wire.
Record RemoteModel : Type := mk {
  id : string;
  object : string;
  context_length : option Z
}.
End Wire.
Abbreviation RemoteModel := Wire.RemoteModel.

(** Result of [await fetch(...)] followed by [await response.json()] and
    the read of [res.data]: either something is thrown on the way (the
    transport rejects, the body is not JSON, [data] is missing) and
    propagates unmodified, or the [data] array is obtained. *)
Inductive FetchResult : Type :=
  | Failed (t : Thrown)
  | Body (data : list RemoteModel).

(** The world a call runs in: the remote endpoint and the log of the HTTP
    requests issued so far. *)
Record World : Type := mkWorld {
  remote : Request -> FetchResult;
  requests : list Request
}.

Definition Eff (A : Type) : Type := World -> Outcome A * World.

Definition ret {A} (a : A) : Eff A := fun w => (Returned a, w).

Definition throw {A} (t : Thrown) : Eff A := fun w => (Threw t, w).

Definition bind {A B} (m : Eff A) (k : A -> Eff B) : Eff B :=
  fun w =>
    match m w with
    | (Returned a, w') => k a w'
    | (Threw t, w') => (Threw t, w')
    end.

Notation "'await' x <- m ; k" := (bind m (fun x => k))
  (at level 10, x name, m at level 100, k at level 200).

(** [fetch(url, { headers })] then [.json()] then [.data]. *)
Definition fetch (req : Request) : Eff (list RemoteModel) :=
  fun w =>
    let w' := {| remote := remote w; requests := requests w ++ [req] |} in
    match remote w req with
    | Failed t => (Threw t, w')
    | Body data => (Returned data, w')
    end.

(** ** Data model *)

Record ModelInfo : Type := mkModelInfo {
  name : string;
  label : string;
  provider : string;
  maxTokenAllowed : Z;
  maxCompletionTokens : Z
}.

Record ProviderConfig : Type := mkConfig {
  apiTokenKey : string;
  baseUrlKey : string;
  baseUrl : string
}.

(** Settings of the client factory [createOpenAI] and the handle
    [openai(model)] it returns. *)
Record OpenAISettings : Type := mkSettings {
  baseURL : string;
  apiKey : string;
  clientHeaders : list (string * string)
}.

Record LanguageModelV1 : Type := mkHandle {
  settings : OpenAISettings;
  modelId : string
}.

Definition createOpenAI (s : OpenAISettings) : string -> LanguageModelV1 :=
  fun model => {| settings := s; modelId := model |}.

(** Result and argument of the inherited [getProviderBaseUrlAndKey]. The
    type of a persisted provider setting is declared outside the provider
    and is kept abstract. *)
Record Resolved : Type := mkResolved {
  resolvedBaseUrl : option string;
  resolvedApiKey : option string
}.

Section Resolution.

Context {IProviderSetting : Type}.

Record ResolveOptions : Type := mkResolveOptions {
  optApiKeys : option (gmap string string);
  optProviderSettings : option IProviderSetting;
  optServerEnv : option (gmap string string);
  defaultBaseUrlKey : string;
  defaultApiTokenKey : string
}.

End Resolution.
Arguments ResolveOptions : clear implicits.

(** ** The provider *)

Module NVIDIAProvider.

Definition providerName : string := "NVIDIA".

Definition getApiKeyLink : string := "https://build.nvidia.com/".

Definition config : ProviderConfig :=
  {| apiTokenKey := "NVIDIA_API_KEY";
     baseUrlKey := "NVIDIA_BASE_URL";
     baseUrl := "https://integrate.api.nvidia.com/v1" |}.

Definition staticModels : list ModelInfo :=
  [ mkModelInfo "gpt-4o" "GPT-4o" "NVIDIA" 128000 4096;
    mkModelInfo "gpt-4o-mini" "GPT-4o Mini" "NVIDIA" 128000 4096;
    mkModelInfo "gpt-3.5-turbo" "GPT-3.5 Turbo" "NVIDIA" 16000 4096;
    mkModelInfo "o1-preview" "o1-preview" "NVIDIA" 128000 32000;
    mkModelInfo "o1-mini" "o1-mini" "NVIDIA" 128000 65000;
    mkModelInfo "qwen/qwen3-coder-480b-a35b-instruct" "Qwen3 Coder 480B"
      "NVIDIA" 32000 8192;
    mkModelInfo "moonshotai/kimi-k2-instruct-0905" "Kimi K2 Instruct"
      "NVIDIA" 32000 8192 ].

(** [this.staticModels.map((m) => m.name)] *)
Definition staticModelIds : list string := map name staticModels.

(** The callback of [res.data.filter]. *)
Definition keepModel (model : RemoteModel) : bool :=
  String.eqb (Wire.object model) "model" &&
  (JS.startsWith (Wire.id model) "gpt-" ||
   JS.startsWith (Wire.id model) "o" ||
   JS.startsWith (Wire.id model) "chatgpt-") &&
  negb (JS.arrayIncludes staticModelIds (Wire.id model)).

(** First chain of conditionals of the [data.map] callback. *)
Definition contextWindow (m : RemoteModel) : Z :=
  if JS.truthyNumber (Wire.context_length m) then
    match Wire.context_length m with Some c => c | None => 32000 end
  else if JS.includes (Wire.id m) "gpt-4o" then 128000
  else if JS.includes (Wire.id m) "gpt-4-turbo" ||
          JS.includes (Wire.id m) "gpt-4-1106" then 128000
  else if JS.includes (Wire.id m) "gpt-4" then 8192
  else if JS.includes (Wire.id m) "gpt-3.5-turbo" then 16385
  else 32000.

(** Second chain of conditionals of the [data.map] callback. *)
Definition completionTokens (m : RemoteModel) : Z :=
  if JS.startsWith (Wire.id m) "o1-preview" then 32000
  else if JS.startsWith (Wire.id m) "o1-mini" then 65000
  else if JS.startsWith (Wire.id m) "o1" then 32000
  else if JS.includes (Wire.id m) "o3" || JS.includes (Wire.id m) "o4"
    then 100000
  else if JS.includes (Wire.id m) "gpt-4o" then 4096
  else if JS.includes (Wire.id m) "gpt-4" then 8192
  else if JS.includes (Wire.id m) "gpt-3.5-turbo" then 4096
  else 4096.

(** The template literal of the [label] field. *)
Definition contextLabel (id : string) (window : Z) : string :=
  id +:+ " (" +:+ JS.numberToString (JS.floorDiv window 1000) +:+
  "k context)".

(** The callback of [data.map]. *)
Definition toModelInfo (m : RemoteModel) : ModelInfo :=
  let contextWindow := contextWindow m in
  let maxCompletionTokens := completionTokens m in
  {| name := Wire.id m;
     label := contextLabel (Wire.id m) contextWindow;
     provider := "NVIDIA";
     maxTokenAllowed := Z.min contextWindow 128000;
     maxCompletionTokens := maxCompletionTokens |}.

(** The literal substituted by [getModelInstance] when no key resolves. *)
Definition hardcodedApiKey : string :=
  "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".

Definition bearerHeaders (apiKey : string) : list (string * string) :=
  [ ("Authorization", "Bearer " +:+ apiKey);
    ("Content-Type", "application/json") ].

Section Methods.

Context {IProviderSetting : Type}.

(** The inherited resolver of [BaseProvider]; its code is not part of
    the provider and every result below holds for any resolver. *)
Variable getProviderBaseUrlAndKey :
  ResolveOptions IProviderSetting -> Resolved.

(** The request of the network step: [modelsUrl] and the headers. *)
Definition modelsRequest (r : Resolved) : Request :=
  let modelsUrl :=
    if JS.truthy (resolvedBaseUrl r)
    then JS.interpolate (resolvedBaseUrl r) +:+ "/models"
    else "https://integrate.api.nvidia.com/v1/models" in
  {| url := modelsUrl;
     headers := bearerHeaders (JS.interpolate (resolvedApiKey r)) |}.

(** The options the resolver call of [getDynamicModels] receives. *)
Definition dynamicResolveOptions
    (apiKeys : option (gmap string string))
    (settings : option IProviderSetting)
    (serverEnv : option (gmap string string))
    : ResolveOptions IProviderSetting :=
  {| optApiKeys := apiKeys;
     optProviderSettings := settings;
     optServerEnv := serverEnv;
     defaultBaseUrlKey := "NVIDIA_BASE_URL";
     defaultApiTokenKey := "NVIDIA_API_KEY" |}.

(** The world once that request has been issued. *)
Definition afterRequest (r : Resolved) (w : World) : World :=
  {| remote := remote w;
     requests := requests w ++ [modelsRequest r] |}.

Definition getDynamicModels
    (apiKeys : option (gmap string string))
    (settings : option IProviderSetting)
    (serverEnv : option (gmap string string)) : Eff (list ModelInfo) :=
  let r := getProviderBaseUrlAndKey
             (dynamicResolveOptions apiKeys settings serverEnv) in
  if negb (JS.truthy (resolvedApiKey r)) then
    throw (ThrownString "Missing API Key configuration for NVIDIA API")
  else
    await res <- fetch (modelsRequest r);
    let data := List.filter keepModel res in
    ret (map toModelInfo data).

Record InstanceOptions : Type := mkInstanceOptions {
  model : string;
  serverEnv : option (gmap string string);
  apiKeys : option (gmap string string);
  providerSettings : option (gmap string IProviderSetting)
}.

(** The options both resolver calls of [getModelInstance] receive. *)
Definition instanceResolveOptions (options : InstanceOptions)
    : ResolveOptions IProviderSetting :=
  {| optApiKeys := apiKeys options;
     optProviderSettings :=
       match providerSettings options with
       | Some ps => ps !! providerName
       | None => None
       end;
     optServerEnv := serverEnv options;
     defaultBaseUrlKey := "NVIDIA_BASE_URL";
     defaultApiTokenKey := "NVIDIA_API_KEY" |}.

Definition getModelInstance (options : InstanceOptions)
    : Outcome LanguageModelV1 :=
  let baseUrl :=
    resolvedBaseUrl
      (getProviderBaseUrlAndKey (instanceResolveOptions options)) in
  let apiKey :=
    resolvedApiKey
      (getProviderBaseUrlAndKey (instanceResolveOptions options)) in
  (* if (!apiKey) { apiKey = '...' } *)
  let apiKey := JS.orElse apiKey hardcodedApiKey in
  let openai :=
    createOpenAI
      {| baseURL := JS.orElse baseUrl "https://integrate.api.nvidia.com/v1";
         apiKey := apiKey;
         clientHeaders := bearerHeaders apiKey |} in
  Returned (openai (model options)).

End Methods.

End NVIDIAProvider.

(** ** A resolver and sample worlds to run the provider on *)

(** Modelled from the spec: the settings resolution of the provider base
    class ([getProviderBaseUrlAndKey]), whose code is not part of the
    provider file. For the key and for the base URL it takes the first
    source that yields a value, in the order: explicit caller-supplied
    map, persisted provider setting, server-environment map; the maps are
    read at the two well-known names. It is used to run the provider on
    concrete inputs; the theorems hold for every resolver. *)
Module SpecResolver.

Record IProviderSetting : Type := mkSetting {
  settingBaseUrl : option string;
  settingApiKey : option string
}.

Definition readMap (m : option (gmap string string)) (k : string)
    : option string :=
  match m with
  | Some m => m !! k
  | None => None
  end.

Definition firstResolved (sources : list (option string)) : option string :=
  match List.find JS.truthy sources with
  | Some v => v
  | None => None
  end.

Definition getProviderBaseUrlAndKey (o : ResolveOptions IProviderSetting)
    : Resolved :=
  let stored (f : IProviderSetting -> option string) :=
    match optProviderSettings o with
    | Some s => f s
    | None => None
    end in
  {| resolvedBaseUrl :=
       firstResolved [ readMap (optApiKeys o) (defaultBaseUrlKey o);
                       stored settingBaseUrl;
                       readMap (optServerEnv o) (defaultBaseUrlKey o) ];
     resolvedApiKey :=
       firstResolved [ readMap (optApiKeys o) (defaultApiTokenKey o);
                       stored settingApiKey;
                       readMap (optServerEnv o) (defaultApiTokenKey o) ] |}.

End SpecResolver.

Module Sample.

Import NVIDIAProvider.

(** An environment that defines the API token only. *)
Definition envWithKey : gmap string string :=
  {[ "NVIDIA_API_KEY" := "nvapi-test" ]}.

(** An environment that defines the API token and the base URL. *)
Definition envWithKeyAndUrl : gmap string string :=
  <[ "NVIDIA_BASE_URL" := "https://nim.example.test/v1" ]> envWithKey.

Definition gpt4o2025 : RemoteModel :=
  Wire.mk "gpt-4o-2025" "model" None.

Definition o1PreviewV2 : RemoteModel :=
  Wire.mk "o1-preview-v2" "model" (Some 200000).

Definition omniModeration : RemoteModel :=
  Wire.mk "omni-moderation-latest" "model" None.

Definition gpt4o3 : RemoteModel :=
  Wire.mk "gpt-4o3" "model" None.

Definition gptWide : RemoteModel :=
  Wire.mk "gpt-5-wide" "model" (Some 128500).

Definition catalog : list RemoteModel :=
  [ gpt4o2025;
    Wire.mk "gpt-4o" "model" None;
    o1PreviewV2;
    Wire.mk "text-embedding-3-small" "model" None;
    Wire.mk "gpt-4o-2025" "list" None;
    gpt4o3;
    gpt4o2025 ].

(** A remote endpoint that answers every request with [data]. *)
Definition serving (data : list RemoteModel) : World :=
  {| remote := fun _ => Body data; requests := [] |}.

Definition run (env : gmap string string) (w : World)
    : Outcome (list ModelInfo) * World :=
  getDynamicModels SpecResolver.getProviderBaseUrlAndKey
    None None (Some env) w.

Definition instanceOptions (env : gmap string string)
    : InstanceOptions (IProviderSetting := SpecResolver.IProviderSetting) :=
  {| model := "gpt-4o"; serverEnv := Some env; apiKeys := None;
     providerSettings := None |}.

(** A remote endpoint that cannot be reached: [fetch] rejects. *)
Definition offline : World :=
  {| remote := fun _ => Failed (ThrownError "TypeError" "fetch failed");
     requests := [] |}.

Definition gptNegative : RemoteModel :=
  Wire.mk "gpt-neg" "model" (Some (-5)).

Definition gpt35 : RemoteModel :=
  Wire.mk "gpt-3.5-turbo-0125" "model" None.

Definition o1Mini2025 : RemoteModel :=
  Wire.mk "o1-mini-2025" "model" None.

(** The dynamic fetch on the sources of an [InstanceOptions] value, as a
    caller holding those options issues it: the persisted setting is the
    entry of the provider. *)
Definition runFor
    (options : InstanceOptions (IProviderSetting := SpecResolver.IProviderSetting))
    (w : World) : Outcome (list ModelInfo) * World :=
  getDynamicModels SpecResolver.getProviderBaseUrlAndKey
    (apiKeys options)
    (optProviderSettings (instanceResolveOptions options))
    (serverEnv options) w.

End Sample.

(** ** The filtering policy, in words

    [Selects P l k]: [k] is [l] with exactly the elements satisfying [P]
    kept, each once, in order. *)
Inductive Selects {A : Type} (P : A -> Prop) : list A -> list A -> Prop :=
  | Selects_nil : Selects P [] []
  | Selects_keep x l k : P x -> Selects P l k -> Selects P (x :: l) (x :: k)
  | Selects_drop x l k : ~ P x -> Selects P l k -> Selects P (x :: l) k.

Module Policy.

Definition hasPrefix (p s : string) : Prop := exists rest, s = p +:+ rest.

Definition isDigit (c : ascii) : Prop :=
  (48 <= nat_of_ascii c <= 57)%nat.

(** [o] followed by a digit. *)
Definition oDigit (s : string) : Prop :=
  exists d rest, isDigit d /\ s = String "o" (String d rest).

Definition inStaticCatalog (s : string) : Prop :=
  exists d, In d NVIDIAProvider.staticModels /\ name d = s.

(** The policy with the reasoning-family rule read as "[o] followed by a
    digit". *)
Definition IncludedDigit (m : RemoteModel) : Prop :=
  Wire.object m = "model" /\
  (hasPrefix "gpt-" (Wire.id m) \/ hasPrefix "chatgpt-" (Wire.id m) \/
   oDigit (Wire.id m)) /\
  ~ inStaticCatalog (Wire.id m).

(** The policy with the reasoning-family rule read as "starts with [o]". *)
Definition Included (m : RemoteModel) : Prop :=
  Wire.object m = "model" /\
  (hasPrefix "gpt-" (Wire.id m) \/ hasPrefix "chatgpt-" (Wire.id m) \/
   hasPrefix "o" (Wire.id m)) /\
  ~ inStaticCatalog (Wire.id m).

End Policy.

(** ** Facts about the JavaScript primitives *)

Section JSFacts.

Lemma startsWith_app (p r : string) : JS.startsWith (p +:+ r) p = true.
Proof.
  unfold JS.startsWith. induction p as [|a p IH]; simpl.
  - by destruct r.
  - rewrite IH. by destruct (Ascii.ascii_dec a a).
Qed.

Lemma startsWith_inv (s p : string) :
  JS.startsWith s p = true -> exists r, s = p +:+ r.
Proof.
  unfold JS.startsWith. revert s.
  induction p as [|a p IH]; intros s H.
  - by exists s.
  - destruct s as [|b s]; simpl in H; [done|].
    destruct (Ascii.ascii_dec a b) as [->|]; [|done].
    destruct (IH s H) as [r ->]. by exists r.
Qed.

Lemma startsWith_iff (s p : string) :
  JS.startsWith s p = true <-> exists r, s = p +:+ r.
Proof.
  split; [apply startsWith_inv|].
  intros [r ->]. apply startsWith_app.
Qed.

(** A string that starts with [p +:+ q] starts with [p]. *)
Lemma startsWith_shorter (s p q : string) :
  JS.startsWith s (p +:+ q) = true -> JS.startsWith s p = true.
Proof.
  intros [r ->]%startsWith_inv.
  assert ((p +:+ q) +:+ r = p +:+ (q +:+ r)) as ->.
  { clear. induction p as [|a p IH]; simpl; [done|].
    unfold String.app in *. simpl. by rewrite IH. }
  apply startsWith_app.
Qed.

Lemma arrayIncludes_iff (arr : list string) (x : string) :
  JS.arrayIncludes arr x = true <-> In x arr.
Proof.
  unfold JS.arrayIncludes. rewrite existsb_exists. split.
  - intros (y & Hy & ->%String.eqb_eq). exact Hy.
  - intros H. exists x. split; [exact H|apply String.eqb_refl].
Qed.

Lemma truthy_Some (s : string) : JS.truthy (Some s) = true <-> s <> "".
Proof.
  unfold JS.truthy. destruct (String.eqb_spec s ""); simpl; split; congruence.
Qed.

Lemma orElse_truthy (v : option string) (s d : string) :
  v = Some s -> s <> "" -> JS.orElse v d = s.
Proof.
  intros -> Hs. unfold JS.orElse.
  by destruct (String.eqb_spec s "").
Qed.

Lemma orElse_falsy (v : option string) (d : string) :
  JS.truthy v = false -> JS.orElse v d = d.
Proof.
  destruct v as [s|]; simpl; [|done].
  by destruct (String.eqb s "").
Qed.

Lemma length_app (s t : string) :
  String.length (s +:+ t) = (String.length s + String.length t)%nat.
Proof.
  induction s as [|a s IH]; [done|].
  change (S (String.length (s +:+ t)) =
          S (String.length s + String.length t)). by rewrite IH.
Qed.

(** Cancellation of a common suffix. *)
Lemma app_inj_r (s1 s2 t : string) : s1 +:+ t = s2 +:+ t -> s1 = s2.
Proof.
  intros H.
  assert (String.length s1 = String.length s2) as Hlen.
  { apply (f_equal String.length) in H. rewrite !length_app in H. lia. }
  revert s2 H Hlen.
  induction s1 as [|a s1 IH]; intros [|b s2] H Hlen;
    simpl in Hlen; try done.
  unfold String.app in H. simpl in H. injection H as -> H.
  f_equal. apply IH; [exact H|lia].
Qed.

End JSFacts.

Section SelectsFacts.

Context {A : Type} (P : A -> Prop).

(** A boolean filter that decides [P] selects by [P]. *)
Lemma filter_Selects (f : A -> bool) (l : list A) :
  (forall x, f x = true <-> P x) -> Selects P l (List.filter f l).
Proof.
  intros Hf. induction l as [|x l IH]; simpl; [constructor|].
  destruct (f x) eqn:Hx.
  - apply Selects_keep; [by apply Hf|exact IH].
  - apply Selects_drop; [|exact IH].
    intros HP%Hf. congruence.
Qed.

(** The selection is unique. *)
Lemma Selects_functional (l k1 k2 : list A) :
  Selects P l k1 -> Selects P l k2 -> k1 = k2.
Proof.
  intros H1. revert k2.
  induction H1 as [|x l k HP _ IH|x l k HP _ IH]; intros k2 H2;
    inversion H2; subst; try done; try (f_equal; auto); auto.
Qed.

Lemma Selects_In (l k : list A) (x : A) :
  Selects P l k -> (In x k <-> In x l /\ P x).
Proof.
  induction 1 as [|y l k HP _ IH|y l k HP _ IH]; simpl.
  - tauto.
  - rewrite IH. split; [intros [->|[]]; auto|tauto].
  - rewrite IH. split; [tauto|].
    intros [[->|?] ?]; [done|auto].
Qed.

End SelectsFacts.

(** ** The dynamic fetch, branch by branch *)

Section DynamicFetch.

Import NVIDIAProvider.

Context {IProviderSetting : Type}.
Variable resolver : ResolveOptions IProviderSetting -> Resolved.
Variables apiKeys serverEnv : option (gmap string string).
Variable settings : option IProviderSetting.

Let r : Resolved :=
  resolver (dynamicResolveOptions apiKeys settings serverEnv).

Lemma getDynamicModels_no_key (w : World) :
  JS.truthy (resolvedApiKey r) = false ->
  getDynamicModels resolver apiKeys settings serverEnv w =
    (Threw (ThrownString "Missing API Key configuration for NVIDIA API"), w).
Proof.
  intros Hkey. unfold getDynamicModels. fold r. by rewrite Hkey.
Qed.

Lemma getDynamicModels_body (w : World) (data : list RemoteModel) :
  JS.truthy (resolvedApiKey r) = true ->
  remote w (modelsRequest r) = Body data ->
  getDynamicModels resolver apiKeys settings serverEnv w =
    (Returned (map toModelInfo (List.filter keepModel data)),
     afterRequest r w).
Proof.
  intros Hkey Hbody. unfold getDynamicModels. fold r. rewrite Hkey. simpl.
  unfold bind, fetch. by rewrite Hbody.
Qed.

Lemma getDynamicModels_failed (w : World) (t : Thrown) :
  JS.truthy (resolvedApiKey r) = true ->
  remote w (modelsRequest r) = Failed t ->
  getDynamicModels resolver apiKeys settings serverEnv w =
    (Threw t, afterRequest r w).
Proof.
  intros Hkey Hbody. unfold getDynamicModels. fold r. rewrite Hkey. simpl.
  unfold bind, fetch. by rewrite Hbody.
Qed.

(** Whenever the fetch returns, it returns the transformed survivors of
    the filter over the body the remote served. *)
Lemma getDynamicModels_returned (w w' : World) (ds : list ModelInfo) :
  getDynamicModels resolver apiKeys settings serverEnv w =
    (Returned ds, w') ->
  exists data,
    remote w (modelsRequest r) = Body data /\
    ds = map toModelInfo (List.filter keepModel data).
Proof.
  destruct (JS.truthy (resolvedApiKey r)) eqn:Hkey.
  - destruct (remote w (modelsRequest r)) as [t|data] eqn:Hbody.
    + rewrite (getDynamicModels_failed w t Hkey Hbody). congruence.
    + rewrite (getDynamicModels_body w data Hkey Hbody).
      intros [= <- _]. by exists data.
  - rewrite (getDynamicModels_no_key w Hkey). congruence.
Qed.

End DynamicFetch.

(** ** The static catalog *)

(** C5. The static catalog has exactly seven descriptors, each with a
    strictly positive [maxTokenAllowed] and a strictly positive
    [maxCompletionTokens], and the seven [name] fields are pairwise
    distinct. *)
Theorem static_catalog_shape :
  length NVIDIAProvider.staticModels = 7%nat /\
  Forall (fun d => 0 < maxTokenAllowed d /\ 0 < maxCompletionTokens d)
    NVIDIAProvider.staticModels /\
  NoDup (map name NVIDIAProvider.staticModels).
Proof.
  split; [reflexivity|]. split.
  - unfold NVIDIAProvider.staticModels.
    repeat (apply List.Forall_cons; [simpl; lia|]). apply List.Forall_nil.
  - apply (bool_decide_unpack _). by vm_compute.
Qed.

Lemma static_catalog_capped :
  Forall (fun d => maxTokenAllowed d <= 128000) NVIDIAProvider.staticModels.
Proof.
  unfold NVIDIAProvider.staticModels.
  repeat (apply List.Forall_cons; [simpl; lia|]). apply List.Forall_nil.
Qed.

(** ** The transformation of one record *)

Section Transformation.

Import NVIDIAProvider.

Lemma toModelInfo_capped (m : RemoteModel) :
  maxTokenAllowed (toModelInfo m) <= 128000.
Proof. simpl. lia. Qed.

Lemma contextWindow_reported (m : RemoteModel) (c : Z) :
  Wire.context_length m = Some c -> c <> 0 -> contextWindow m = c.
Proof.
  intros Hc Hnz. unfold contextWindow. rewrite Hc. simpl.
  by destruct (Z.eqb_spec c 0).
Qed.

(** The three [o1] tests are nested: an id that does not start with
    [o1] fails the two longer prefixes as well. *)
Lemma completionTokens_not_o1 (m : RemoteModel) :
  JS.startsWith (Wire.id m) "o1" = false ->
  completionTokens m =
    if JS.includes (Wire.id m) "o3" || JS.includes (Wire.id m) "o4"
    then 100000
    else if JS.includes (Wire.id m) "gpt-4o" then 4096
    else if JS.includes (Wire.id m) "gpt-4" then 8192
    else 4096.
Proof.
  intros Ho1. unfold completionTokens.
  destruct (JS.startsWith (Wire.id m) "o1-preview") eqn:Hp.
  { apply (startsWith_shorter _ "o1" "-preview") in Hp. congruence. }
  destruct (JS.startsWith (Wire.id m) "o1-mini") eqn:Hm.
  { apply (startsWith_shorter _ "o1" "-mini") in Hm. congruence. }
  rewrite Ho1.
  by repeat match goal with |- context [if ?b then _ else _] =>
              destruct b end.
Qed.

End Transformation.

(** C6. The record [{id: "gpt-4o-2025", object: "model"}] without
    [context_length] is transformed into a descriptor with
    [maxTokenAllowed = 128000], [maxCompletionTokens = 4096] and label
    ["gpt-4o-2025 (128k context)"]; the fetch that is served this record
    returns exactly that descriptor. *)
Theorem gpt4o2025_descriptor :
  let d := NVIDIAProvider.toModelInfo (Wire.mk "gpt-4o-2025" "model" None) in
  maxTokenAllowed d = 128000 /\
  maxCompletionTokens d = 4096 /\
  label d = "gpt-4o-2025 (128k context)" /\
  fst (Sample.run Sample.envWithKey
         (Sample.serving [Wire.mk "gpt-4o-2025" "model" None])) =
    Returned [d].
Proof. by vm_compute. Qed.

(** C7. The record [{id: "o1-preview-v2", object: "model",
    context_length: 200000}] is transformed into a descriptor whose
    [maxTokenAllowed] is capped at 128000 and whose
    [maxCompletionTokens] is 32000; the fetch that is served this record
    returns exactly that descriptor. *)
Theorem o1_preview_v2_descriptor :
  let d := NVIDIAProvider.toModelInfo
             (Wire.mk "o1-preview-v2" "model" (Some 200000)) in
  maxTokenAllowed d = 128000 /\
  maxCompletionTokens d = 32000 /\
  fst (Sample.run Sample.envWithKey
         (Sample.serving [Wire.mk "o1-preview-v2" "model" (Some 200000)])) =
    Returned [d].
Proof. by vm_compute. Qed.

(** C4. Every descriptor the adapter produces has [maxTokenAllowed] at
    most 128000: every entry of the static catalog, and every descriptor
    of every list the dynamic fetch returns, whatever the resolver, the
    arguments and the remote response (a reported [context_length] above
    128000 included). *)
Theorem maxTokenAllowed_capped :
  Forall (fun d => maxTokenAllowed d <= 128000) NVIDIAProvider.staticModels /\
  forall (IProviderSetting : Type)
         (resolver : ResolveOptions IProviderSetting -> Resolved)
         (apiKeys serverEnv : option (gmap string string))
         (settings : option IProviderSetting)
         (w w' : World) (ds : list ModelInfo),
    NVIDIAProvider.getDynamicModels resolver apiKeys settings serverEnv w =
      (Returned ds, w') ->
    Forall (fun d => maxTokenAllowed d <= 128000) ds.
Proof.
  split; [apply static_catalog_capped|].
  intros S resolver apiKeys serverEnv settings w w' ds Hrun.
  apply getDynamicModels_returned in Hrun as (data & _ & ->).
  apply List.Forall_forall. intros d (m & <- & _)%in_map_iff.
  apply toModelInfo_capped.
Qed.

Lemma maxTokenAllowed_capped_witness :
  Sample.run Sample.envWithKey (Sample.serving Sample.catalog) =
    (Returned (map NVIDIAProvider.toModelInfo
                 [Sample.gpt4o2025; Sample.o1PreviewV2; Sample.gpt4o3;
                  Sample.gpt4o2025]),
     NVIDIAProvider.afterRequest
       (SpecResolver.getProviderBaseUrlAndKey
          (NVIDIAProvider.dynamicResolveOptions
             None None (Some Sample.envWithKey)))
       (Sample.serving Sample.catalog)) /\
  Forall (fun d => maxTokenAllowed d <= 128000)
    (map NVIDIAProvider.toModelInfo
       [Sample.gpt4o2025; Sample.o1PreviewV2; Sample.gpt4o3;
        Sample.gpt4o2025]).
Proof.
  assert (Sample.run Sample.envWithKey (Sample.serving Sample.catalog) =
    (Returned (map NVIDIAProvider.toModelInfo
                 [Sample.gpt4o2025; Sample.o1PreviewV2; Sample.gpt4o3;
                  Sample.gpt4o2025]),
     NVIDIAProvider.afterRequest
       (SpecResolver.getProviderBaseUrlAndKey
          (NVIDIAProvider.dynamicResolveOptions
             None None (Some Sample.envWithKey)))
       (Sample.serving Sample.catalog))) as Hrun by reflexivity.
  split; [exact Hrun|].
  exact (proj2 maxTokenAllowed_capped _ _ _ _ _ _ _ _ Hrun).
Defined.

(** C10. In the completion-token heuristic the [o3]/[o4] substring rule
    comes before the [gpt-4o] rule: a record whose id does not start with
    [o1] and contains [o3] or [o4] gets [maxCompletionTokens = 100000],
    also when the id is [gpt-]prefixed and contains [gpt-4o]. *)
Theorem o3_o4_rule_precedes_gpt4o (m : RemoteModel) :
  JS.startsWith (Wire.id m) "o1" = false ->
  JS.includes (Wire.id m) "o3" = true \/ JS.includes (Wire.id m) "o4" = true ->
  maxCompletionTokens (NVIDIAProvider.toModelInfo m) = 100000.
Proof.
  intros Ho1 Hsub. simpl.
  rewrite (completionTokens_not_o1 m Ho1).
  by destruct Hsub as [-> | ->]; rewrite ?orb_true_r.
Qed.

Lemma o3_o4_rule_precedes_gpt4o_witness :
  JS.startsWith "gpt-4o3" "o1" = false /\
  JS.includes "gpt-4o3" "gpt-4o" = true /\
  maxCompletionTokens (NVIDIAProvider.toModelInfo Sample.gpt4o3) = 100000.
Proof.
  split; [reflexivity|]. split; [reflexivity|].
  apply (o3_o4_rule_precedes_gpt4o Sample.gpt4o3); [reflexivity|].
  left. reflexivity.
Defined.

(** ** The filtering policy *)

Section Filtering.

Import NVIDIAProvider.

Lemma staticModelIds_iff (s : string) :
  JS.arrayIncludes staticModelIds s = true <-> Policy.inStaticCatalog s.
Proof.
  rewrite arrayIncludes_iff. unfold staticModelIds, Policy.inStaticCatalog.
  rewrite in_map_iff. split; intros (d & H1 & H2); exists d; auto.
Qed.

(** The callback of the filter decides the policy "starts with [o]". *)
Lemma keepModel_iff (m : RemoteModel) :
  keepModel m = true <-> Policy.Included m.
Proof.
  unfold keepModel, Policy.Included, Policy.hasPrefix.
  rewrite !andb_true_iff, !orb_true_iff, negb_true_iff, String.eqb_eq.
  rewrite !startsWith_iff, <- staticModelIds_iff.
  destruct (JS.arrayIncludes staticModelIds (Wire.id m)); intuition congruence.
Qed.

Lemma omniModeration_not_oDigit :
  ~ Policy.IncludedDigit Sample.omniModeration.
Proof.
  intros (_ & [[r H] | [[r H] | (d & r & Hd & H)]] & _);
    try discriminate H.
  injection H as <- _. unfold Policy.isDigit in Hd.
  change (nat_of_ascii "m") with 109%nat in Hd. lia.
Qed.

End Filtering.

(** C1, as amended. When a key resolves and the remote serves [data], the
    dynamic fetch issues one request and returns, in order, exactly one
    transformed descriptor for each record of [data] whose [object] is
    ["model"], whose id starts with ["gpt-"], ["chatgpt-"] or ["o"], and
    whose id is not the [name] of a static catalog entry; every other
    record is excluded. *)
Theorem dynamic_fetch_filter
    (IProviderSetting : Type)
    (resolver : ResolveOptions IProviderSetting -> Resolved)
    (apiKeys serverEnv : option (gmap string string))
    (settings : option IProviderSetting)
    (w : World) (data : list RemoteModel) :
  let r := resolver
             (NVIDIAProvider.dynamicResolveOptions apiKeys settings serverEnv) in
  JS.truthy (resolvedApiKey r) = true ->
  remote w (NVIDIAProvider.modelsRequest r) = Body data ->
  exists kept,
    Selects Policy.Included data kept /\
    NVIDIAProvider.getDynamicModels resolver apiKeys settings serverEnv w =
      (Returned (map NVIDIAProvider.toModelInfo kept),
       NVIDIAProvider.afterRequest r w).
Proof.
  intros r Hkey Hbody.
  exists (List.filter NVIDIAProvider.keepModel data). split.
  - apply filter_Selects, keepModel_iff.
  - by apply getDynamicModels_body.
Qed.

Lemma dynamic_fetch_filter_witness :
  exists kept,
    Selects Policy.Included Sample.catalog kept /\
    Sample.run Sample.envWithKey (Sample.serving Sample.catalog) =
      (Returned (map NVIDIAProvider.toModelInfo kept),
       NVIDIAProvider.afterRequest
         (SpecResolver.getProviderBaseUrlAndKey
            (NVIDIAProvider.dynamicResolveOptions
               None None (Some Sample.envWithKey)))
         (Sample.serving Sample.catalog)).
Proof.
  apply (dynamic_fetch_filter SpecResolver.IProviderSetting
           SpecResolver.getProviderBaseUrlAndKey
           None (Some Sample.envWithKey) None
           (Sample.serving Sample.catalog) Sample.catalog);
    reflexivity.
Defined.

(** C1 as stated fails: the record [{id: "omni-moderation-latest",
    object: "model"}] has an id that starts neither with ["gpt-"] nor with
    ["chatgpt-"] nor with [o] followed by a digit, so the stated policy
    selects nothing from the one-record body, yet the fetch returns its
    descriptor. *)
Lemma dynamic_fetch_filter_counterexample :
  ~ Policy.IncludedDigit Sample.omniModeration /\
  Selects Policy.IncludedDigit [Sample.omniModeration] [] /\
  fst (Sample.run Sample.envWithKey
         (Sample.serving [Sample.omniModeration])) =
    Returned [NVIDIAProvider.toModelInfo Sample.omniModeration].
Proof.
  split; [apply omniModeration_not_oDigit|]. split.
  - apply Selects_drop; [apply omniModeration_not_oDigit|constructor].
  - reflexivity.
Qed.

(** ** Missing credentials *)

(** C3. When no API key resolves, the dynamic fetch throws the plain
    string ["Missing API Key configuration for NVIDIA API"] and leaves the
    world as it found it: no request is added to the log. *)
Theorem dynamic_fetch_missing_key
    (IProviderSetting : Type)
    (resolver : ResolveOptions IProviderSetting -> Resolved)
    (apiKeys serverEnv : option (gmap string string))
    (settings : option IProviderSetting)
    (w : World) :
  JS.truthy
    (resolvedApiKey
       (resolver
          (NVIDIAProvider.dynamicResolveOptions apiKeys settings serverEnv)))
    = false ->
  let out :=
    NVIDIAProvider.getDynamicModels resolver apiKeys settings serverEnv w in
  fst out =
    Threw (ThrownString "Missing API Key configuration for NVIDIA API") /\
  requests (snd out) = requests w /\
  snd out = w.
Proof.
  intros Hkey out. subst out.
  by rewrite (getDynamicModels_no_key resolver apiKeys serverEnv settings w Hkey).
Qed.

Lemma dynamic_fetch_missing_key_witness :
  let out := Sample.run ∅ (Sample.serving Sample.catalog) in
  fst out =
    Threw (ThrownString "Missing API Key configuration for NVIDIA API") /\
  requests (snd out) = [] /\
  snd out = Sample.serving Sample.catalog.
Proof.
  apply (dynamic_fetch_missing_key SpecResolver.IProviderSetting
           SpecResolver.getProviderBaseUrlAndKey
           None (Some ∅) None (Sample.serving Sample.catalog)).
  reflexivity.
Defined.

(** ** Client construction *)

(** C2. Client construction never fails: [getModelInstance] returns a
    handle for every input, and when no API key resolves the handle's API
    key is the embedded literal, which is also the bearer token of its
    headers. *)
Theorem getModelInstance_never_fails
    (IProviderSetting : Type)
    (resolver : ResolveOptions IProviderSetting -> Resolved)
    (options : NVIDIAProvider.InstanceOptions) :
  exists h,
    NVIDIAProvider.getModelInstance resolver options = Returned h /\
    modelId h = NVIDIAProvider.model options /\
    (JS.truthy
       (resolvedApiKey
          (resolver (NVIDIAProvider.instanceResolveOptions options)))
       = false ->
     apiKey (settings h) = NVIDIAProvider.hardcodedApiKey /\
     clientHeaders (settings h) =
       NVIDIAProvider.bearerHeaders NVIDIAProvider.hardcodedApiKey).
Proof.
  eexists. split; [reflexivity|]. split; [reflexivity|].
  intros Hkey. simpl. by rewrite (orElse_falsy _ _ Hkey).
Qed.

Lemma getModelInstance_never_fails_witness :
  exists h,
    NVIDIAProvider.getModelInstance SpecResolver.getProviderBaseUrlAndKey
      (Sample.instanceOptions ∅) = Returned h /\
    modelId h = "gpt-4o" /\
    (JS.truthy
       (resolvedApiKey
          (SpecResolver.getProviderBaseUrlAndKey
             (NVIDIAProvider.instanceResolveOptions
                (Sample.instanceOptions ∅))))
       = false ->
     apiKey (settings h) = NVIDIAProvider.hardcodedApiKey /\
     clientHeaders (settings h) =
       NVIDIAProvider.bearerHeaders NVIDIAProvider.hardcodedApiKey).
Proof.
  exact (getModelInstance_never_fails SpecResolver.IProviderSetting
           SpecResolver.getProviderBaseUrlAndKey (Sample.instanceOptions ∅)).
Defined.

(** C8. The handle is bound to the resolved base URL when one resolves
    (a non-empty string), and to the default
    ["https://integrate.api.nvidia.com/v1"] when none does. *)
Theorem getModelInstance_baseURL
    (IProviderSetting : Type)
    (resolver : ResolveOptions IProviderSetting -> Resolved)
    (options : NVIDIAProvider.InstanceOptions) :
  let r := resolver (NVIDIAProvider.instanceResolveOptions options) in
  exists h,
    NVIDIAProvider.getModelInstance resolver options = Returned h /\
    (forall b, resolvedBaseUrl r = Some b -> b <> "" ->
               baseURL (settings h) = b) /\
    (JS.truthy (resolvedBaseUrl r) = false ->
     baseURL (settings h) = "https://integrate.api.nvidia.com/v1").
Proof.
  intros r. eexists. split; [reflexivity|]. simpl. fold r. split.
  - intros b Hb Hne. by apply orElse_truthy.
  - apply orElse_falsy.
Qed.

Lemma getModelInstance_baseURL_witness :
  (exists h,
     NVIDIAProvider.getModelInstance SpecResolver.getProviderBaseUrlAndKey
       (Sample.instanceOptions Sample.envWithKeyAndUrl) = Returned h /\
     baseURL (settings h) = "https://nim.example.test/v1") /\
  (exists h,
     NVIDIAProvider.getModelInstance SpecResolver.getProviderBaseUrlAndKey
       (Sample.instanceOptions Sample.envWithKey) = Returned h /\
     baseURL (settings h) = "https://integrate.api.nvidia.com/v1").
Proof.
  split.
  - destruct (getModelInstance_baseURL SpecResolver.IProviderSetting
                SpecResolver.getProviderBaseUrlAndKey
                (Sample.instanceOptions Sample.envWithKeyAndUrl))
      as (h & Hh & Hurl & _).
    exists h. split; [exact Hh|].
    apply Hurl; [reflexivity|discriminate].
  - destruct (getModelInstance_baseURL SpecResolver.IProviderSetting
                SpecResolver.getProviderBaseUrlAndKey
                (Sample.instanceOptions Sample.envWithKey))
      as (h & Hh & _ & Hdef).
    exists h. split; [exact Hh|].
    apply Hdef. reflexivity.
Defined.

(** ** Label and cap *)

Section Label.

Import NVIDIAProvider.

(** Two labels of one id agree only on windows with the same number of
    thousands. *)
Lemma contextLabel_inj (id : string) (a b : Z) :
  contextLabel id a = contextLabel id b -> a / 1000 = b / 1000.
Proof.
  unfold contextLabel, JS.numberToString, JS.floorDiv.
  intros H. apply String.app_inj, String.app_inj, app_inj_r in H.
  by apply (inj pretty) in H.
Qed.

End Label.

(** C9, as amended. For a record that reports a [context_length] above
    128000, within the safe integer range, the label is built from the
    reported value (its number of thousands) while [maxTokenAllowed] is
    128000; from 129000 on, the label differs from the label of the
    capped value. *)
Theorem label_uses_uncapped_window (m : RemoteModel) (c : Z) :
  Wire.context_length m = Some c ->
  128000 < c ->
  c <= JS.MAX_SAFE_INTEGER ->
  label (NVIDIAProvider.toModelInfo m) =
    Wire.id m +:+ " (" +:+ pretty (c / 1000) +:+ "k context)" /\
  maxTokenAllowed (NVIDIAProvider.toModelInfo m) = 128000 /\
  (129000 <= c ->
   label (NVIDIAProvider.toModelInfo m) <>
     NVIDIAProvider.contextLabel (Wire.id m)
       (maxTokenAllowed (NVIDIAProvider.toModelInfo m))).
Proof.
  intros Hc Hbig _.
  assert (NVIDIAProvider.contextWindow m = c) as Hw.
  { apply contextWindow_reported; [exact Hc|lia]. }
  simpl. rewrite Hw. split; [reflexivity|].
  split; [lia|].
  intros Hfar Heq%contextLabel_inj.
  rewrite Z.min_r in Heq by lia.
  assert (129 <= c / 1000) by (apply Z.div_le_lower_bound; lia).
  change (128000 / 1000) with 128 in Heq. lia.
Qed.

Lemma label_uses_uncapped_window_witness :
  label (NVIDIAProvider.toModelInfo Sample.o1PreviewV2) =
    "o1-preview-v2 (200k context)" /\
  maxTokenAllowed (NVIDIAProvider.toModelInfo Sample.o1PreviewV2) = 128000 /\
  label (NVIDIAProvider.toModelInfo Sample.o1PreviewV2) <>
    "o1-preview-v2 (128k context)".
Proof.
  destruct (label_uses_uncapped_window Sample.o1PreviewV2 200000)
    as (Hl & Hm & Hne); [reflexivity|lia|unfold JS.MAX_SAFE_INTEGER; lia|].
  split; [exact Hl|]. split; [exact Hm|].
  apply Hne. lia.
Defined.

(** C9 as stated fails between 128001 and 128999: the record
    [{id: "gpt-5-wide", object: "model", context_length: 128500}] reports
    more than 128000, is capped at 128000, and its label
    ["gpt-5-wide (128k context)"] is the label of the cap. *)
Lemma label_uses_uncapped_window_counterexample :
  Wire.context_length Sample.gptWide = Some 128500 /\
  128000 < 128500 /\
  maxTokenAllowed (NVIDIAProvider.toModelInfo Sample.gptWide) = 128000 /\
  label (NVIDIAProvider.toModelInfo Sample.gptWide) =
    "gpt-5-wide (128k context)" /\
  label (NVIDIAProvider.toModelInfo Sample.gptWide) =
    NVIDIAProvider.contextLabel (Wire.id Sample.gptWide)
      (maxTokenAllowed (NVIDIAProvider.toModelInfo Sample.gptWide)).
Proof. repeat split; try reflexivity. Qed.


(** * Further properties of the provider *)

(** ** The network step *)

Section NetworkStep.

Import NVIDIAProvider.

(** The request of the network step, spelled out for a resolved key. *)
Lemma modelsRequest_resolved (r : Resolved) (k : string) :
  resolvedApiKey r = Some k ->
  modelsRequest r =
    {| url := JS.orElse (resolvedBaseUrl r) (baseUrl config) +:+ "/models";
       headers := [ ("Authorization", "Bearer " +:+ k);
                    ("Content-Type", "application/json") ] |}.
Proof.
  intros Hk. unfold modelsRequest, bearerHeaders. rewrite Hk. simpl.
  f_equal. destruct (resolvedBaseUrl r) as [b|]; simpl; [|reflexivity].
  destruct (String.eqb b ""); reflexivity.
Qed.

Lemma filter_ids_sublist (f : RemoteModel -> bool) (data : list RemoteModel) :
  sublist (map Wire.id (List.filter f data)) (map Wire.id data).
Proof.
  induction data as [|m data IH]; simpl; [constructor|].
  destruct (f m); simpl; by constructor.
Qed.

Lemma toModelInfo_names (l : list RemoteModel) :
  map name (map toModelInfo l) = map Wire.id l.
Proof. induction l as [|m l IH]; simpl; [done|]. by rewrite IH. Qed.

End NetworkStep.

(** X1. A failure of the network step is not caught: when a key resolves
    and the request fails with a thrown value, the dynamic fetch throws
    that same value, after exactly one request and without a retry. *)
Theorem transport_failure_propagates
    (IProviderSetting : Type)
    (resolver : ResolveOptions IProviderSetting -> Resolved)
    (apiKeys serverEnv : option (gmap string string))
    (settings : option IProviderSetting)
    (w : World) (t : Thrown) :
  let r := resolver
             (NVIDIAProvider.dynamicResolveOptions apiKeys settings serverEnv) in
  let out :=
    NVIDIAProvider.getDynamicModels resolver apiKeys settings serverEnv w in
  JS.truthy (resolvedApiKey r) = true ->
  remote w (NVIDIAProvider.modelsRequest r) = Failed t ->
  fst out = Threw t /\
  requests (snd out) =
    (requests w ++ [NVIDIAProvider.modelsRequest r])%list.
Proof.
  intros r out Hkey Hfail. subst out.
  by rewrite (getDynamicModels_failed resolver apiKeys serverEnv settings
                w t Hkey Hfail).
Qed.

Lemma transport_failure_propagates_witness :
  let out := Sample.run Sample.envWithKey Sample.offline in
  fst out = Threw (ThrownError "TypeError" "fetch failed") /\
  requests (snd out) =
    [ {| url := "https://integrate.api.nvidia.com/v1/models";
         headers := [ ("Authorization", "Bearer nvapi-test");
                      ("Content-Type", "application/json") ] |} ].
Proof.
  apply (transport_failure_propagates SpecResolver.IProviderSetting
           SpecResolver.getProviderBaseUrlAndKey
           None (Some Sample.envWithKey) None Sample.offline
           (ThrownError "TypeError" "fetch failed"));
    reflexivity.
Defined.

(** X2. When a key [k] resolves, the dynamic fetch issues one GET to the
    resolved base URL, or to the configured default when none resolves,
    followed by ["/models"], with the headers [Authorization: Bearer k]
    and [Content-Type: application/json], whether the request then
    succeeds or fails. *)
Theorem models_request_shape
    (IProviderSetting : Type)
    (resolver : ResolveOptions IProviderSetting -> Resolved)
    (apiKeys serverEnv : option (gmap string string))
    (settings : option IProviderSetting)
    (w : World) (k : string) :
  let r := resolver
             (NVIDIAProvider.dynamicResolveOptions apiKeys settings serverEnv) in
  let out :=
    NVIDIAProvider.getDynamicModels resolver apiKeys settings serverEnv w in
  resolvedApiKey r = Some k ->
  k <> "" ->
  requests (snd out) =
    (requests w ++
     [ {| url := JS.orElse (resolvedBaseUrl r)
                   (baseUrl NVIDIAProvider.config) +:+ "/models";
          headers := [ ("Authorization", "Bearer " +:+ k);
                       ("Content-Type", "application/json") ] |} ])%list.
Proof.
  intros r out Hk Hne. subst out.
  assert (JS.truthy (resolvedApiKey r) = true) as Hkey.
  { rewrite Hk. by apply truthy_Some. }
  rewrite <- (modelsRequest_resolved r k Hk).
  destruct (remote w (NVIDIAProvider.modelsRequest r)) as [t|data] eqn:Hrem.
  - by rewrite (getDynamicModels_failed resolver apiKeys serverEnv settings
                  w t Hkey Hrem).
  - by rewrite (getDynamicModels_body resolver apiKeys serverEnv settings
                  w data Hkey Hrem).
Qed.

Lemma models_request_shape_witness :
  requests (snd (Sample.run Sample.envWithKeyAndUrl
                   (Sample.serving Sample.catalog))) =
    [ {| url := "https://nim.example.test/v1/models";
         headers := [ ("Authorization", "Bearer nvapi-test");
                      ("Content-Type", "application/json") ] |} ] /\
  requests (snd (Sample.run Sample.envWithKey Sample.offline)) =
    [ {| url := "https://integrate.api.nvidia.com/v1/models";
         headers := [ ("Authorization", "Bearer nvapi-test");
                      ("Content-Type", "application/json") ] |} ].
Proof.
  split.
  - apply (models_request_shape SpecResolver.IProviderSetting
             SpecResolver.getProviderBaseUrlAndKey
             None (Some Sample.envWithKeyAndUrl) None
             (Sample.serving Sample.catalog) "nvapi-test");
      [reflexivity|discriminate].
  - apply (models_request_shape SpecResolver.IProviderSetting
             SpecResolver.getProviderBaseUrlAndKey
             None (Some Sample.envWithKey) None
             Sample.offline "nvapi-test");
      [reflexivity|discriminate].
Defined.

(** X3. A call of the dynamic fetch adds exactly one request to the log
    when a key resolves and none when no key resolves, whatever the
    remote answers: there is no retry and no second endpoint. *)
Theorem fetch_request_count
    (IProviderSetting : Type)
    (resolver : ResolveOptions IProviderSetting -> Resolved)
    (apiKeys serverEnv : option (gmap string string))
    (settings : option IProviderSetting)
    (w : World) :
  let r := resolver
             (NVIDIAProvider.dynamicResolveOptions apiKeys settings serverEnv) in
  let out :=
    NVIDIAProvider.getDynamicModels resolver apiKeys settings serverEnv w in
  length (requests (snd out)) =
    (length (requests w) + if JS.truthy (resolvedApiKey r) then 1 else 0)%nat.
Proof.
  intros r out. subst out.
  destruct (JS.truthy (resolvedApiKey r)) eqn:Hkey.
  - destruct (remote w (NVIDIAProvider.modelsRequest r)) as [t|data] eqn:Hrem.
    + rewrite (getDynamicModels_failed resolver apiKeys serverEnv settings
                 w t Hkey Hrem).
      simpl. by rewrite List.length_app.
    + rewrite (getDynamicModels_body resolver apiKeys serverEnv settings
                 w data Hkey Hrem).
      simpl. by rewrite List.length_app.
  - rewrite (getDynamicModels_no_key resolver apiKeys serverEnv settings
               w Hkey).
    simpl. lia.
Qed.

(** ** What the dynamic fetch returns *)

(** X4. The dynamic catalog never repeats the static one: no descriptor
    returned by the dynamic fetch has the [name] of a static catalog
    entry, even when the remote serves such a record. *)
Theorem dynamic_names_not_static
    (IProviderSetting : Type)
    (resolver : ResolveOptions IProviderSetting -> Resolved)
    (apiKeys serverEnv : option (gmap string string))
    (settings : option IProviderSetting)
    (w w' : World) (ds : list ModelInfo) :
  NVIDIAProvider.getDynamicModels resolver apiKeys settings serverEnv w =
    (Returned ds, w') ->
  forall d, In d ds ->
    ~ In (name d) (map name NVIDIAProvider.staticModels).
Proof.
  intros Hrun d Hd.
  apply getDynamicModels_returned in Hrun as (data & _ & ->).
  apply in_map_iff in Hd as (m & <- & Hm).
  apply filter_In in Hm as [_ Hkeep].
  apply keepModel_iff in Hkeep as (_ & _ & Hstatic).
  intros Hin. apply Hstatic.
  apply in_map_iff in Hin as (s & Hs & Hin). by exists s.
Qed.

Lemma dynamic_names_not_static_witness :
  In "gpt-4o" (map Wire.id Sample.catalog) /\
  forall d,
    In d (map NVIDIAProvider.toModelInfo
            [Sample.gpt4o2025; Sample.o1PreviewV2; Sample.gpt4o3;
             Sample.gpt4o2025]) ->
    ~ In (name d) (map name NVIDIAProvider.staticModels).
Proof.
  split; [right; left; reflexivity|].
  apply (dynamic_names_not_static SpecResolver.IProviderSetting
           SpecResolver.getProviderBaseUrlAndKey
           None (Some Sample.envWithKey) None
           (Sample.serving Sample.catalog)
           (NVIDIAProvider.afterRequest
              (SpecResolver.getProviderBaseUrlAndKey
                 (NVIDIAProvider.dynamicResolveOptions
                    None None (Some Sample.envWithKey)))
              (Sample.serving Sample.catalog))).
  reflexivity.
Defined.

(** X5. The dynamic fetch keeps the remote order and adds nothing: the
    names of the returned descriptors are a subsequence of the ids of the
    served records, and every returned descriptor is the transformation
    of a served record whose [object] is ["model"]. *)
Theorem dynamic_names_in_remote_order
    (IProviderSetting : Type)
    (resolver : ResolveOptions IProviderSetting -> Resolved)
    (apiKeys serverEnv : option (gmap string string))
    (settings : option IProviderSetting)
    (w w' : World) (ds : list ModelInfo) :
  NVIDIAProvider.getDynamicModels resolver apiKeys settings serverEnv w =
    (Returned ds, w') ->
  exists data,
    remote w
      (NVIDIAProvider.modelsRequest
         (resolver
            (NVIDIAProvider.dynamicResolveOptions apiKeys settings serverEnv)))
      = Body data /\
    sublist (map name ds) (map Wire.id data) /\
    forall d, In d ds ->
      exists m, In m data /\ Wire.object m = "model" /\
                d = NVIDIAProvider.toModelInfo m.
Proof.
  intros Hrun.
  apply getDynamicModels_returned in Hrun as (data & Hrem & ->).
  exists data. split; [exact Hrem|]. split.
  - rewrite toModelInfo_names. apply filter_ids_sublist.
  - intros d (m & <- & Hm)%in_map_iff.
    apply filter_In in Hm as [Hin Hkeep].
    apply keepModel_iff in Hkeep as (Hobj & _).
    by exists m.
Qed.

Lemma dynamic_names_in_remote_order_witness :
  exists data,
    Body Sample.catalog = Body data /\
    sublist ["gpt-4o-2025"; "o1-preview-v2"; "gpt-4o3"; "gpt-4o-2025"]
      (map Wire.id data) /\
    forall d,
      In d (map NVIDIAProvider.toModelInfo
              [Sample.gpt4o2025; Sample.o1PreviewV2; Sample.gpt4o3;
               Sample.gpt4o2025]) ->
      exists m, In m data /\ Wire.object m = "model" /\
                d = NVIDIAProvider.toModelInfo m.
Proof.
  exact (dynamic_names_in_remote_order SpecResolver.IProviderSetting
           SpecResolver.getProviderBaseUrlAndKey
           None (Some Sample.envWithKey) None
           (Sample.serving Sample.catalog)
           (NVIDIAProvider.afterRequest
              (SpecResolver.getProviderBaseUrlAndKey
                 (NVIDIAProvider.dynamicResolveOptions
                    None None (Some Sample.envWithKey)))
              (Sample.serving Sample.catalog))
           (map NVIDIAProvider.toModelInfo
              [Sample.gpt4o2025; Sample.o1PreviewV2; Sample.gpt4o3;
               Sample.gpt4o2025])
           eq_refl).
Defined.

Section CompletionRange.

Import NVIDIAProvider.

Lemma completionTokens_values (m : RemoteModel) :
  In (completionTokens m) [4096; 8192; 32000; 65000; 100000].
Proof.
  unfold completionTokens.
  repeat match goal with |- context [if ?b then _ else _] =>
           destruct b end; simpl; tauto.
Qed.

End CompletionRange.

(** X6. Every descriptor the dynamic fetch returns carries the provider
    tag ["NVIDIA"] and a [maxCompletionTokens] that is one of 4096, 8192,
    32000, 65000 and 100000, so between 4096 and 100000, whatever the
    remote reports. *)
Theorem dynamic_completion_tokens_range
    (IProviderSetting : Type)
    (resolver : ResolveOptions IProviderSetting -> Resolved)
    (apiKeys serverEnv : option (gmap string string))
    (settings : option IProviderSetting)
    (w w' : World) (ds : list ModelInfo) :
  NVIDIAProvider.getDynamicModels resolver apiKeys settings serverEnv w =
    (Returned ds, w') ->
  Forall (fun d => provider d = "NVIDIA" /\
                   In (maxCompletionTokens d)
                     [4096; 8192; 32000; 65000; 100000] /\
                   4096 <= maxCompletionTokens d <= 100000) ds.
Proof.
  intros Hrun.
  apply getDynamicModels_returned in Hrun as (data & _ & ->).
  apply List.Forall_forall. intros d (m & <- & _)%in_map_iff.
  split; [reflexivity|].
  pose proof (completionTokens_values m) as Hv. split; [exact Hv|].
  simpl in Hv |- *. lia.
Qed.

Lemma dynamic_completion_tokens_range_witness :
  Forall (fun d => provider d = "NVIDIA" /\
                   In (maxCompletionTokens d)
                     [4096; 8192; 32000; 65000; 100000] /\
                   4096 <= maxCompletionTokens d <= 100000)
    (map NVIDIAProvider.toModelInfo
       [Sample.gpt4o2025; Sample.o1PreviewV2; Sample.gpt4o3;
        Sample.gpt4o2025]).
Proof.
  apply (dynamic_completion_tokens_range SpecResolver.IProviderSetting
           SpecResolver.getProviderBaseUrlAndKey
           None (Some Sample.envWithKey) None
           (Sample.serving Sample.catalog)
           (NVIDIAProvider.afterRequest
              (SpecResolver.getProviderBaseUrlAndKey
                 (NVIDIAProvider.dynamicResolveOptions
                    None None (Some Sample.envWithKey)))
              (Sample.serving Sample.catalog))).
  reflexivity.
Defined.

(** ** Edge cases of the transformation *)

Section WindowFacts.

Import NVIDIAProvider.

(** Without a usable [context_length] the window comes from the table. *)
Lemma contextWindow_heuristic (m : RemoteModel) :
  JS.truthyNumber (Wire.context_length m) = false ->
  In (contextWindow m) [128000; 8192; 16385; 32000].
Proof.
  intros Hfalsy. unfold contextWindow. rewrite Hfalsy.
  repeat match goal with |- context [if ?b then _ else _] =>
           destruct b end; simpl; tauto.
Qed.

Lemma contextLabel_thousands (id : string) (window thousands : Z) (s : string) :
  window / 1000 = thousands ->
  pretty thousands +:+ "k context)" = s ->
  contextLabel id window = id +:+ " (" +:+ s.
Proof.
  intros <- <-. reflexivity.
Qed.

(** The ids that start with [o1-mini] do not start with [o1-preview]. *)
Lemma o1_mini_not_preview (s : string) :
  JS.startsWith s "o1-mini" = true -> JS.startsWith s "o1-preview" = false.
Proof.
  intros [r ->]%startsWith_inv. reflexivity.
Qed.

End WindowFacts.

(** X7. A record whose [context_length] is absent or not negative gets a
    strictly positive [maxTokenAllowed] and a strictly positive
    [maxCompletionTokens]. *)
Theorem descriptor_limits_positive (m : RemoteModel) :
  (forall c, Wire.context_length m = Some c -> 0 <= c) ->
  0 < maxTokenAllowed (NVIDIAProvider.toModelInfo m) /\
  0 < maxCompletionTokens (NVIDIAProvider.toModelInfo m).
Proof.
  intros Hnonneg. split.
  - destruct (JS.truthyNumber (Wire.context_length m)) eqn:Htruthy.
    + destruct (Wire.context_length m) as [c|] eqn:Hc; [|discriminate].
      pose proof (Hnonneg c eq_refl) as Hc0.
      assert (c <> 0) as Hnz.
      { simpl in Htruthy. by destruct (Z.eqb_spec c 0). }
      simpl. rewrite (contextWindow_reported m c Hc Hnz). lia.
    + pose proof (contextWindow_heuristic m Htruthy) as Hv.
      simpl in Hv |- *. lia.
  - pose proof (completionTokens_values m) as Hv. simpl in Hv |- *. lia.
Qed.

Lemma descriptor_limits_positive_witness :
  0 < maxTokenAllowed (NVIDIAProvider.toModelInfo Sample.o1PreviewV2) /\
  0 < maxCompletionTokens (NVIDIAProvider.toModelInfo Sample.o1PreviewV2).
Proof.
  apply (descriptor_limits_positive Sample.o1PreviewV2).
  intros c [= <-]. lia.
Defined.

(** X8. The cap is an upper bound only: a negative reported
    [context_length] is copied into [maxTokenAllowed] unchanged, so the
    descriptor's context limit is negative. *)
Theorem negative_context_length_passes (m : RemoteModel) (c : Z) :
  Wire.context_length m = Some c ->
  c < 0 ->
  maxTokenAllowed (NVIDIAProvider.toModelInfo m) = c.
Proof.
  intros Hc Hneg. simpl.
  rewrite (contextWindow_reported m c Hc) by lia. lia.
Qed.

Lemma negative_context_length_passes_witness :
  fst (Sample.run Sample.envWithKey (Sample.serving [Sample.gptNegative])) =
    Returned [NVIDIAProvider.toModelInfo Sample.gptNegative] /\
  maxTokenAllowed (NVIDIAProvider.toModelInfo Sample.gptNegative) = -5.
Proof.
  split; [reflexivity|].
  apply (negative_context_length_passes Sample.gptNegative (-5));
    [reflexivity|lia].
Defined.

(** X9. Without a usable [context_length] (absent or 0) the context
    window is one of the four table values, the cap leaves it unchanged,
    and the label shows its whole thousands: 128000 as [128k], 8192 as
    [8k], 16385 as [16k], 32000 as [32k]. *)
Theorem heuristic_window_and_label (m : RemoteModel) :
  JS.truthyNumber (Wire.context_length m) = false ->
  let d := NVIDIAProvider.toModelInfo m in
  (maxTokenAllowed d = 128000 /\
   label d = Wire.id m +:+ " (128k context)") \/
  (maxTokenAllowed d = 8192 /\
   label d = Wire.id m +:+ " (8k context)") \/
  (maxTokenAllowed d = 16385 /\
   label d = Wire.id m +:+ " (16k context)") \/
  (maxTokenAllowed d = 32000 /\
   label d = Wire.id m +:+ " (32k context)").
Proof.
  intros Hfalsy d. subst d. simpl.
  pose proof (contextWindow_heuristic m Hfalsy) as Hv. simpl in Hv.
  destruct Hv as [<- | [<- | [<- | [<- | []]]]].
  - left. split; [reflexivity|].
    by apply (contextLabel_thousands _ _ 128).
  - right; left. split; [reflexivity|].
    by apply (contextLabel_thousands _ _ 8).
  - right; right; left. split; [reflexivity|].
    by apply (contextLabel_thousands _ _ 16).
  - right; right; right. split; [reflexivity|].
    by apply (contextLabel_thousands _ _ 32).
Qed.

Lemma heuristic_window_and_label_witness :
  maxTokenAllowed (NVIDIAProvider.toModelInfo Sample.gpt35) = 16385 /\
  label (NVIDIAProvider.toModelInfo Sample.gpt35) =
    "gpt-3.5-turbo-0125 (16k context)".
Proof.
  destruct (heuristic_window_and_label Sample.gpt35 eq_refl)
    as [[H _] | [[H _] | [H | [H _]]]];
    try discriminate H.
  exact H.
Defined.

(** X10. Among the ids that start with [o1], those that start with
    [o1-mini] get [maxCompletionTokens = 65000] and all the others get
    32000; the later substring rules are never consulted for them. *)
Theorem o1_family_completion_tokens (m : RemoteModel) :
  JS.startsWith (Wire.id m) "o1" = true ->
  maxCompletionTokens (NVIDIAProvider.toModelInfo m) =
    if JS.startsWith (Wire.id m) "o1-mini" then 65000 else 32000.
Proof.
  intros Ho1. simpl. unfold NVIDIAProvider.completionTokens. rewrite Ho1.
  destruct (JS.startsWith (Wire.id m) "o1-mini") eqn:Hmini.
  - by rewrite (o1_mini_not_preview _ Hmini).
  - by destruct (JS.startsWith (Wire.id m) "o1-preview").
Qed.

Lemma o1_family_completion_tokens_witness :
  maxCompletionTokens (NVIDIAProvider.toModelInfo Sample.o1Mini2025) = 65000 /\
  maxCompletionTokens (NVIDIAProvider.toModelInfo Sample.o1PreviewV2) = 32000.
Proof.
  split.
  - apply (o1_family_completion_tokens Sample.o1Mini2025). reflexivity.
  - apply (o1_family_completion_tokens Sample.o1PreviewV2). reflexivity.
Defined.

(** ** More on client construction *)

Section ClientFacts.

Lemma orElse_nonempty (v : option string) (d : string) :
  d <> "" -> JS.orElse v d <> "".
Proof.
  intros Hd. destruct v as [s|]; simpl; [|exact Hd].
  by destruct (String.eqb_spec s "").
Qed.

(** With a key, the log grows by the request of the network step. *)
Lemma getDynamicModels_log
    (IProviderSetting : Type)
    (resolver : ResolveOptions IProviderSetting -> Resolved)
    (apiKeys serverEnv : option (gmap string string))
    (settings : option IProviderSetting)
    (w : World) :
  let r := resolver
             (NVIDIAProvider.dynamicResolveOptions apiKeys settings serverEnv) in
  JS.truthy (resolvedApiKey r) = true ->
  requests
    (snd (NVIDIAProvider.getDynamicModels resolver apiKeys settings serverEnv w))
  = (requests w ++ [NVIDIAProvider.modelsRequest r])%list.
Proof.
  intros r Hkey.
  destruct (remote w (NVIDIAProvider.modelsRequest r)) as [t|data] eqn:Hrem.
  - by rewrite (getDynamicModels_failed resolver apiKeys serverEnv settings
                  w t Hkey Hrem).
  - by rewrite (getDynamicModels_body resolver apiKeys serverEnv settings
                  w data Hkey Hrem).
Qed.

End ClientFacts.

(** X11. When a key [k] resolves, the handle is built with that key: its
    API key is [k], its headers are [Authorization: Bearer k] and
    [Content-Type: application/json], and the embedded literal is not
    used. *)
Theorem getModelInstance_resolved_key
    (IProviderSetting : Type)
    (resolver : ResolveOptions IProviderSetting -> Resolved)
    (options : NVIDIAProvider.InstanceOptions) (k : string) :
  resolvedApiKey
    (resolver (NVIDIAProvider.instanceResolveOptions options)) = Some k ->
  k <> "" ->
  exists h,
    NVIDIAProvider.getModelInstance resolver options = Returned h /\
    apiKey (settings h) = k /\
    clientHeaders (settings h) =
      [ ("Authorization", "Bearer " +:+ k);
        ("Content-Type", "application/json") ].
Proof.
  intros Hk Hne. eexists. split; [reflexivity|]. simpl.
  by rewrite (orElse_truthy _ k _ Hk Hne).
Qed.

Lemma getModelInstance_resolved_key_witness :
  exists h,
    NVIDIAProvider.getModelInstance SpecResolver.getProviderBaseUrlAndKey
      (Sample.instanceOptions Sample.envWithKey) = Returned h /\
    apiKey (settings h) = "nvapi-test" /\
    clientHeaders (settings h) =
      [ ("Authorization", "Bearer nvapi-test");
        ("Content-Type", "application/json") ].
Proof.
  apply (getModelInstance_resolved_key SpecResolver.IProviderSetting
           SpecResolver.getProviderBaseUrlAndKey
           (Sample.instanceOptions Sample.envWithKey) "nvapi-test");
    [reflexivity|discriminate].
Defined.

(** X12. For every input the handle is bound to a non-empty base URL and
    a non-empty API key, its bearer token is that API key, and its model
    is the requested one: an empty or missing credential never reaches
    the client factory. *)
Theorem getModelInstance_never_blank
    (IProviderSetting : Type)
    (resolver : ResolveOptions IProviderSetting -> Resolved)
    (options : NVIDIAProvider.InstanceOptions) :
  exists h,
    NVIDIAProvider.getModelInstance resolver options = Returned h /\
    baseURL (settings h) <> "" /\
    apiKey (settings h) <> "" /\
    clientHeaders (settings h) =
      [ ("Authorization", "Bearer " +:+ apiKey (settings h));
        ("Content-Type", "application/json") ] /\
    modelId h = NVIDIAProvider.model options.
Proof.
  eexists. split; [reflexivity|]. simpl.
  split; [by apply orElse_nonempty|].
  split; [by apply orElse_nonempty|]. done.
Qed.

(** X13. The catalog is fetched from the endpoint the client is bound to:
    on the sources of one options value, when a key resolves, the request
    of the dynamic fetch goes to the handle's base URL followed by
    ["/models"] and carries the handle's headers. *)
Theorem fetch_and_client_share_endpoint
    (IProviderSetting : Type)
    (resolver : ResolveOptions IProviderSetting -> Resolved)
    (options : NVIDIAProvider.InstanceOptions) (w : World) :
  let r := resolver (NVIDIAProvider.instanceResolveOptions options) in
  let out :=
    NVIDIAProvider.getDynamicModels resolver
      (NVIDIAProvider.apiKeys options)
      (optProviderSettings (NVIDIAProvider.instanceResolveOptions options))
      (NVIDIAProvider.serverEnv options) w in
  JS.truthy (resolvedApiKey r) = true ->
  exists h,
    NVIDIAProvider.getModelInstance resolver options = Returned h /\
    requests (snd out) =
      (requests w ++
       [ {| url := baseURL (settings h) +:+ "/models";
            headers := clientHeaders (settings h) |} ])%list.
Proof.
  intros r out Hkey. subst out.
  destruct (resolvedApiKey r) as [k|] eqn:Hk; [|discriminate].
  assert (k <> "") as Hne by (by apply truthy_Some).
  eexists. split; [reflexivity|].
  rewrite (getDynamicModels_log _ resolver _ _ _ w)
    by (change (JS.truthy (resolvedApiKey r) = true); by rewrite Hk).
  change (resolver (NVIDIAProvider.dynamicResolveOptions _ _ _)) with r.
  rewrite (modelsRequest_resolved r k Hk). simpl. fold r. rewrite Hk.
  by rewrite (orElse_truthy (Some k) k _ eq_refl Hne).
Qed.

Lemma fetch_and_client_share_endpoint_witness :
  exists h,
    NVIDIAProvider.getModelInstance SpecResolver.getProviderBaseUrlAndKey
      (Sample.instanceOptions Sample.envWithKeyAndUrl) = Returned h /\
    requests
      (snd (Sample.runFor (Sample.instanceOptions Sample.envWithKeyAndUrl)
              (Sample.serving Sample.catalog))) =
      [ {| url := baseURL (settings h) +:+ "/models";
           headers := clientHeaders (settings h) |} ].
Proof.
  apply (fetch_and_client_share_endpoint SpecResolver.IProviderSetting
           SpecResolver.getProviderBaseUrlAndKey
           (Sample.instanceOptions Sample.envWithKeyAndUrl)
           (Sample.serving Sample.catalog)).
  reflexivity.
Defined.
